(** * GXPTemplate: launch, path resolution and status validation

    A shallow embedding of [Util.cpp], [OsUtil.cpp] and [GXPTemplate.cpp].

    - C string arguments are [string]s (the characters before the
      terminator); a pointer that may be [NULL] is an [option string].
    - [std::cout] is an explicit [ostream] value: the format flags as the
      bit mask the C++ library keeps, the field width, the fill character
      and the text written so far.  The stream is taken to be in a good
      state, so every insertion writes.
    - Everything the operating system or the remote API decides (the
      environment, the working directory, the answer of [CreateProcess],
      the reply to [gxpConnect]) is a field of [World]; the functions of
      [OsUtil] and the driver thread a [World] through their calls. *)

From Stdlib Require Import ZArith String Ascii List Bool Lia.
Import ListNotations.

Local Open Scope string_scope.
Local Open Scope Z_scope.

(* ------------------------------------------------------------------ *)
(** ** The output stream *)

Module Ios.

(** [ios_base::fmtflags] as laid out by the C++ library this Windows
    program is built with. *)
Definition skipws      : Z := 0x0001.
Definition unitbuf     : Z := 0x0002.
Definition uppercase   : Z := 0x0004.
Definition showbase    : Z := 0x0008.
Definition showpoint   : Z := 0x0010.
Definition showpos     : Z := 0x0020.
Definition left        : Z := 0x0040.
Definition right       : Z := 0x0080.
Definition internal    : Z := 0x0100.
Definition dec         : Z := 0x0200.
Definition oct         : Z := 0x0400.
Definition hex         : Z := 0x0800.
Definition adjustfield : Z := 0x01C0.
Definition basefield   : Z := 0x0E00.

Record ostream : Type := mkOstream {
  os_flags : Z;        (* cout.flags() *)
  os_width : Z;        (* cout.width() *)
  os_fill  : ascii;    (* cout.fill()  *)
  os_text  : string    (* characters written so far *)
}.

(** The state [std::cout] starts in. *)
Definition init : ostream := mkOstream (Z.lor skipws dec) 0 " "%char "".

Definition set_flags (os : ostream) (f : Z) : ostream :=
  mkOstream f (os_width os) (os_fill os) (os_text os).
Definition set_width (os : ostream) (w : Z) : ostream :=
  mkOstream (os_flags os) w (os_fill os) (os_text os).
Definition set_fill (os : ostream) (c : ascii) : ostream :=
  mkOstream (os_flags os) (os_width os) c (os_text os).
Definition write (os : ostream) (s : string) : ostream :=
  mkOstream (os_flags os) (os_width os) (os_fill os) (os_text os ++ s).

(** [setf(f, mask)]: clear [mask], then set the bits of [f] inside it. *)
Definition setf (os : ostream) (f mask : Z) : ostream :=
  set_flags os (Z.lor (Z.ldiff (os_flags os) mask) (Z.land f mask)).

Definition has (f bit : Z) : bool := negb (Z.land f bit =? 0).

Fixpoint fill_chars (n : nat) (c : ascii) : string :=
  match n with
  | O => EmptyString
  | S k => String c (fill_chars k c)
  end.

(** Fill characters needed to bring [len] characters up to width [w]. *)
Definition padding (w : Z) (c : ascii) (len : nat) : string :=
  fill_chars (Z.to_nat (w - Z.of_nat len)) c.

(** One formatted field made of the pieces [pre] and [body]: the fill goes
    after the field when it is left-adjusted, between the pieces when it is
    internal, before the field otherwise. *)
Definition field_text (f w : Z) (c : ascii) (pre body : string) : string :=
  let pad := padding w c (String.length (pre ++ body)) in
  let adj := Z.land f adjustfield in
  if adj =? left then pre ++ body ++ pad
  else if adj =? internal then pre ++ pad ++ body
  else pad ++ pre ++ body.

(** Formatted output writes the field and resets the width to 0. *)
Definition put_field (os : ostream) (pre body : string) : ostream :=
  set_width
    (write os (field_text (os_flags os) (os_width os) (os_fill os) pre body))
    0.

(** [operator<<] for a C string. *)
Definition put_string (os : ostream) (s : string) : ostream :=
  put_field os "" s.

(** *** Integer conversion *)

Definition digit_char (upper : bool) (d : Z) : ascii :=
  if d <? 10 then ascii_of_nat (Z.to_nat (48 + d))
  else ascii_of_nat (Z.to_nat ((if upper then 55 else 87) + d)).

(** The [n] low digits of [u] in base [b], most significant first. *)
Fixpoint digits (b : Z) (upper : bool) (n : nat) (u : Z) : string :=
  match n with
  | O => EmptyString
  | S k => String (digit_char upper ((u / b ^ Z.of_nat k) mod b))
                  (digits b upper k u)
  end.

(** Drop leading zeros, keeping the last digit. *)
Fixpoint strip_zeros (s : string) : string :=
  match s with
  | String c (String _ _ as t) => if Ascii.eqb c "0" then strip_zeros t else s
  | _ => s
  end.

(** A C++ [long] of this platform is 32 bits wide. *)
Definition to_long (x : Z) : Z := (x + 2 ^ 31) mod 2 ^ 32 - 2 ^ 31.
Definition to_ulong (x : Z) : Z := x mod 2 ^ 32.

(** What [num_put] produces for a [long] under the flags [f], before
    padding, split where internal fill would go: the sign or the [0x]
    prefix, then the rest.  Hexadecimal and octal show the 32 bits as an
    unsigned number. *)
Definition long_repr (f : Z) (x : Z) : string * string :=
  let base := Z.land f basefield in
  let u := to_ulong x in
  if base =? hex then
    let up := has f uppercase in
    (if has f showbase && negb (u =? 0)
     then (if up then "0X" else "0x") else "",
     strip_zeros (digits 16 up 8 u))
  else if base =? oct then
    ("",
     (if has f showbase && negb (u =? 0) then "0" else "")
       ++ strip_zeros (digits 8 false 11 u))
  else
    let v := to_long x in
    (if v <? 0 then "-" else if has f showpos then "+" else "",
     strip_zeros (digits 10 false 10 (Z.abs v))).

(** [operator<<] for a [long]. *)
Definition put_long (os : ostream) (x : Z) : ostream :=
  put_field os (fst (long_repr (os_flags os) x))
               (snd (long_repr (os_flags os) x)).

(** *** Manipulators *)

Inductive manip : Type :=
| endl
| m_hex                         (* std::hex *)
| setw (n : Z)
| setfill (c : ascii)
| resetiosflags (mask : Z).

Definition put_manip (os : ostream) (m : manip) : ostream :=
  match m with
  | endl => write os (String "010"%char "")
  | m_hex => setf os hex basefield
  | setw n => set_width os n
  | setfill c => set_fill os c
  | resetiosflags mask => setf os 0 mask
  end.

(** [operator<<] is overloaded on the type of what is inserted. *)
Class Insert (A : Type) : Type := insert : ostream -> A -> ostream.

#[global] Instance insert_cstr : Insert string := put_string.
#[global] Instance insert_long : Insert Z := put_long.
#[global] Instance insert_manip : Insert manip := put_manip.

End Ios.

Import Ios.

Notation "os << x" := (insert os x) (at level 40, left associativity).
Definition nl : string := String "010"%char "".

(* ------------------------------------------------------------------ *)
(** ** The remote session API, as far as the program uses it *)

Definition GSIT_STATUS : Type := Z.

(** The status macros and the failure constant of the remote session API,
    whose header is not part of the program, are parameters: nothing below
    depends on how a status encodes success. *)
Class Gsit : Type := {
  GSIT_SUCCEEDED : GSIT_STATUS -> bool;
  GSIT_FAILED    : GSIT_STATUS -> bool;
  GSIT_FAILURE   : GSIT_STATUS
}.


(** Modelled from the spec: error code 0 is the success code, any other
    code a failure ([validate(Success, errorCode=0)] is true,
    [validate(Success, errorCode=nonzero)] is false). *)
Definition zero_is_success : Gsit := {|
  GSIT_SUCCEEDED := fun x => x =? 0;
  GSIT_FAILED    := fun x => negb (x =? 0);
  GSIT_FAILURE   := 1
|}.

(** Modelled from the spec: the API's string, with [getLength] and
    [getText]. *)
Definition ApiString : Type := string.
Definition getLength (s : ApiString) : nat := String.length s.
Definition getText (s : ApiString) : string := s.

(** Modelled from the spec: the API's status object, exposing
    [getErrorCode()] and [getErrorString(out)]. *)
Record ApiStatus : Type := mkApiStatus {
  getErrorCode   : GSIT_STATUS;
  getErrorString : ApiString
}.

(* ------------------------------------------------------------------ *)
(** ** Util.cpp *)

Module Util.

Definition checkStatus {G : Gsit}
    (comm_status : GSIT_STATUS) (gxp_status : ApiStatus)
    (cout : ostream) : bool * ostream :=
  let success := false in
  let ios_width := os_width cout in
  let ios_fill := os_fill cout in
  let error_string := getErrorString gxp_status in
  let cout :=
    if GSIT_FAILED comm_status || GSIT_FAILED (getErrorCode gxp_status) then
      let ios_width := os_width cout in
      let ios_fill := os_fill cout in
      let cout := cout << " >> ERROR <<" << endl in
      let cout := cout << "Communication Error: 0x" << m_hex << setw 8
                       << setfill "0" << to_long comm_status << endl in
      let cout := cout << resetiosflags hex in
      let cout := cout << "GXP Error: 0x" << m_hex << setw 8
                       << setfill "0" << getErrorCode gxp_status << endl in
      let cout := cout << resetiosflags hex in
      let cout :=
        if negb (getLength error_string =? 0)%nat
        then cout << "GXP Error: " << getText error_string << endl
        else cout in
      let cout := cout << endl << endl in
      let cout := set_fill cout ios_fill in
      let cout := set_width cout ios_width in
      cout
    else cout in
  let success :=
    GSIT_SUCCEEDED comm_status && GSIT_SUCCEEDED (getErrorCode gxp_status) in
  (success, cout).

End Util.

(* ------------------------------------------------------------------ *)
(** ** The world outside the program *)

Inductive ApiCall : Type :=
| InitializeApi | gxpConnect | gxpDisconnect | UninitializeApi.

(** What the program asked of its surroundings, oldest first. *)
Inductive Event : Type :=
| EvGetenv (name : string)
| EvGetcwd
| EvCreateProcess (image : string)
| EvCheckStatus
| EvApi (call : ApiCall).

Record PROCESS_INFORMATION : Type := mkProcessInfo {
  dwProcessId : Z;
  dwThreadId  : Z
}.

(** The operating system's answer to a [CreateProcess] request. *)
Inductive CreateResult : Type :=
| Created (info : PROCESS_INFORMATION)
| Refused (error : Z).

Record World : Type := mkWorld {
  cout          : ostream;
  environ       : string -> option string;
  os_cwd        : option string;       (* [None]: it cannot be determined *)
  os_create     : string -> CreateResult;
  last_error    : Z;
  connect_reply : GSIT_STATUS * ApiStatus;
  trace         : list Event
}.

Definition M (A : Type) : Type := World -> A * World.

Definition ret {A} (a : A) : M A := fun w => (a, w).
Definition bind {A B} (m : M A) (k : A -> M B) : M B :=
  fun w => let '(a, w1) := m w in k a w1.

Notation "x <- m ;; k" := (bind m (fun x => k))
  (at level 61, m at next level, right associativity).
Notation "m ;; k" := (bind m (fun _ => k))
  (at level 61, right associativity).

Definition log (e : Event) : M unit := fun w =>
  (tt, mkWorld (cout w) (environ w) (os_cwd w) (os_create w) (last_error w)
               (connect_reply w) (trace w ++ [e])).

Definition set_last_error (e : Z) : M unit := fun w =>
  (tt, mkWorld (cout w) (environ w) (os_cwd w) (os_create w) e
               (connect_reply w) (trace w)).

(** Run a chain of insertions on [std::cout]. *)
Definition print (f : ostream -> ostream) : M unit := fun w =>
  (tt, mkWorld (f (cout w)) (environ w) (os_cwd w) (os_create w)
               (last_error w) (connect_reply w) (trace w)).

Definition getenv (name : string) : M (option string) :=
  log (EvGetenv name) ;; fun w => (environ w name, w).

(** [_getcwd(buffer, maxlen)]: [NULL] when the directory cannot be
    determined or does not fit the buffer with its terminator. *)
Definition _getcwd (maxlen : Z) : M (option string) :=
  log EvGetcwd ;;
  fun w =>
    (match os_cwd w with
     | Some d => if Z.of_nat (String.length d) <? maxlen then Some d else None
     | None => None
     end, w).

Definition zero_info : PROCESS_INFORMATION := mkProcessInfo 0 0.

(** [CreateProcess(image, ..., &process_info)]: the answer and what is left
    in [process_info], zeroed beforehand. *)
Definition CreateProcess (image : string) : M (bool * PROCESS_INFORMATION) :=
  log (EvCreateProcess image) ;;
  fun w =>
    match os_create w image with
    | Created info => ((true, info), w)
    | Refused e => (set_last_error e ;; ret (false, zero_info)) w
    end.

Definition GetLastError : M Z := fun w => (last_error w, w).

Definition api (c : ApiCall) : M unit := log (EvApi c).

(** [Util::checkStatus] as a step of the program. *)
Definition Util_checkStatus {G : Gsit}
    (comm_status : GSIT_STATUS) (gxp_status : ApiStatus) : M bool :=
  log EvCheckStatus ;;
  fun w =>
    let '(ok, c) := Util.checkStatus comm_status gxp_status (cout w) in
    (ok, mkWorld c (environ w) (os_cwd w) (os_create w) (last_error w)
                 (connect_reply w) (trace w)).

(* ------------------------------------------------------------------ *)
(** ** OsUtil.cpp *)

Module OsUtil.

Definition pid_t : Type := Z.

Definition MAX_PATH_LENGTH : Z := 2048.

Definition StartApplication (application : option string) : M pid_t :=
  match application with
  | None => ret (Z.b2z false)
  | Some application =>
    if (String.length application =? 0)%nat then ret (Z.b2z false)
    else
      let exe := application ++ ".exe" in
      r <- CreateProcess exe ;;
      let '(created, process_info) := r in
      if created then ret 10
      else
        e <- GetLastError ;;
        print (fun cout => cout << "REPORTED ERROR: " << to_long e << endl) ;;
        ret 0
  end.

Definition StartGxpApplication : M pid_t :=
  path <- getenv "SOCETGXPEXE" ;;
  match path with
  | None =>
    print (fun cout => cout << "SOCETGXPEXE is not set." << endl) ;;
    ret 0
  | Some path =>
    let gxp_path := path in
    let gxp_path := gxp_path ++ "\SocetGxp" in
    StartApplication (Some gxp_path)
  end.

Definition WaitOnProcess (pid : pid_t) : M unit := ret tt.

Definition NormalizeLocalPath (path : string) : M string :=
  let normalized_path := "" in
  let drive_set := false in
  if (String.length path =? 0)%nat then ret normalized_path
  else
    let max_path := MAX_PATH_LENGTH in
    let drive_set :=
      if (3 <? String.length path)%nat then
        if match String.get 1 path, String.get 2 path with
           | Some c1, Some c2 => Ascii.eqb c1 ":" && Ascii.eqb c2 "\"
           | _, _ => false
           end
        then true else drive_set
      else drive_set in
    if negb drive_set then
      cur <- _getcwd max_path ;;
      match cur with
      | None => ret normalized_path
      | Some cur_path =>
        let normalized_path := cur_path in
        let normalized_path := normalized_path ++ "\" in
        ret (normalized_path ++ path)
      end
    else ret (normalized_path ++ path).

End OsUtil.

(* ------------------------------------------------------------------ *)
(** ** GXPTemplate.cpp *)

Module GXPTemplate.

Definition MAX_CONNECT_ATTEMPTS : Z := 100.

(** [gxp_manager.gxpConnect(status)]: the transport status returned and
    the status object filled in. *)
Definition ApiManager_gxpConnect : M (GSIT_STATUS * ApiStatus) :=
  api gxpConnect ;; fun w => (connect_reply w, w).

Definition exec {G : Gsit} : M unit :=
  let comm_status := GSIT_FAILURE in
  r <- ApiManager_gxpConnect ;;
  let '(comm_status, status) := r in
  api gxpDisconnect.

Definition _tmain {G : Gsit} : M Z :=
  api InitializeApi ;;
  exec ;;
  api UninitializeApi ;;
  ret 0.

End GXPTemplate.

(* ------------------------------------------------------------------ *)
(** ** What the specification talks about *)

(** The 8-digit zero-padded hexadecimal rendering of a 32-bit status. *)
Definition hex8 (upper : bool) (x : Z) : string :=
  digits 16 upper 8 (to_ulong x).

Definition hex_digit_value (c : ascii) : Z :=
  let n := Z.of_nat (nat_of_ascii c) in
  if n <? 58 then n - 48 else if n <? 71 then n - 55 else n - 87.

(** The number a string of hexadecimal digits denotes, continuing [acc]. *)
Fixpoint hex_value (acc : Z) (s : string) : Z :=
  match s with
  | EmptyString => acc
  | String c t => hex_value (16 * acc + hex_digit_value c) t
  end.

(** A stream whose fields are neither left-adjusted nor prefixed with the
    base, as [std::cout] is unless the caller asked otherwise. *)
Definition plain (os : ostream) : Prop :=
  has (os_flags os) showbase = false /\
  Z.land (os_flags os) adjustfield <> left.

Definition banner : string := " >> ERROR <<".


(** [t] occurs in [s]. *)
Definition contains (s t : string) : Prop := exists a b, s = a ++ t ++ b.

(** The prefix [OsUtil::NormalizeLocalPath] takes for an absolute path:
    more than 3 characters, ':' at position 1 and the separator at
    position 2. *)
Definition drive_prefix (p : string) : Prop :=
  (3 < String.length p)%nat /\
  String.get 1 p = Some ":"%char /\ String.get 2 p = Some "\"%char.

(** The events a call added to the trace. *)
Definition added {A} (m : M A) (w : World) : list Event :=
  skipn (List.length (trace w)) (trace (snd (m w))).

(** [s] occurs in [l] in order, not necessarily contiguously. *)
Inductive subseq {A : Type} : list A -> list A -> Prop :=
| subseq_nil  : forall l, subseq [] l
| subseq_take : forall x s l, subseq s l -> subseq (x :: s) (x :: l)
| subseq_skip : forall x s l, subseq s l -> subseq s (x :: l).

(** The reference flow in the specification's words, at its weakest: the
    environment is read, then the API is initialised, then the session is
    connected, then the connect result is validated. *)
Definition reference_flow (evs : list Event) : Prop :=
  exists name,
    subseq [EvGetenv name; EvApi InitializeApi; EvApi gxpConnect;
            EvCheckStatus] evs.

(* ------------------------------------------------------------------ *)
(** ** Sample inputs *)

Definition status_ok : ApiStatus := mkApiStatus 0 "".
Definition status_no_session : ApiStatus := mkApiStatus 5 "no session".

(** A machine where the variable is set, the launch succeeds and the
    connect attempt fails. *)
Definition demo_world : World :=
  mkWorld init
    (fun name =>
       if String.eqb name "SOCETGXPEXE" then Some "C:\install" else None)
    (Some "C:\work")
    (fun _ => Created (mkProcessInfo 4242 4243))
    0
    (1, status_no_session)
    [].

(** The same machine without the variable. *)
Definition bare_world : World :=
  mkWorld init (fun _ => None) None (fun _ => Refused 2) 0
    (0, status_ok) [].

Definition is_disconnect (e : Event) : bool :=
  match e with
  | EvApi gxpDisconnect => true
  | _ => false
  end.


(* ------------------------------------------------------------------ *)
(** ** OsUtil::Sleep *)

(** The range of a C++ [int] on this platform. *)
Definition int_fits (x : Z) : bool := (- 2 ^ 31 <=? x) && (x <? 2 ^ 31).

(** [OsUtil::Sleep(seconds)] calls the system's [Sleep] on
    [seconds*1000], computed in [int] and received as an unsigned 32-bit
    count of milliseconds.  The result is that count; [None] stands for a
    product outside [int], which C++ leaves undefined. *)
Definition OsUtil_Sleep (seconds : Z) : option Z :=
  if int_fits (seconds * 1000) then Some (to_ulong (seconds * 1000))
  else None.

(* ------------------------------------------------------------------ *)
(** ** Further vocabulary for the properties below *)


(** What [Util::checkStatus] writes after the line of the error code: the
    message line when there is a message, then two empty lines. *)
Definition message_tail (msg : string) : string :=
  match msg with
  | EmptyString => nl ++ nl
  | _ => "GXP Error: " ++ msg ++ nl ++ nl ++ nl
  end.

(** The format state of a stream. *)
Definition format_of (os : ostream) : Z * Z * ascii :=
  (os_flags os, os_width os, os_fill os).

(** A machine whose working directory does not fit the buffer of
    [OsUtil::NormalizeLocalPath]. *)
Definition deep_world : World :=
  mkWorld init (fun _ => None) (Some (fill_chars 2048 "d")) (fun _ => Refused 2)
    0 (0, status_ok) [].





(* ------------------------------------------------------------------ *)
(** ** The stream model on sample insertions *)

Example put_long_hex8 :
  os_text (init << m_hex << setw 8 << setfill "0" << 2147500037)
  = "80004005".
Proof. reflexivity. Qed.

Example put_long_neg :
  os_text (init << m_hex << setw 8 << setfill "0" << (-1) << endl << 42 << (-7))
  = "ffffffff" ++ nl ++ "2a" ++ "fffffff9".
Proof. reflexivity. Qed.

Example put_long_dec :
  os_text (init << setw 5 << (-42) << setw 4 << "ab" << 0)
  = "  -42  ab0".
Proof. reflexivity. Qed.

(* ------------------------------------------------------------------ *)
(** ** Format flags *)

Section Flags.

Ltac by_bits :=
  apply Z.bits_inj'; intros n Hn;
  repeat first [ rewrite Z.land_spec | rewrite Z.lor_spec
               | rewrite Z.ldiff_spec | rewrite Z.bits_0 ].


(** Outside its mask, [setf] changes nothing. *)
Lemma setf_outside (f v mask m : Z) :
  Z.land mask m = 0 ->
  Z.land (Z.lor (Z.ldiff f mask) (Z.land v mask)) m = Z.land f m.
Proof.
  intros H. by_bits.
  assert (Hm : Z.testbit mask n && Z.testbit m n = false).
  { rewrite <- Z.land_spec, H. apply Z.bits_0. }
  destruct (Z.testbit f n), (Z.testbit v n), (Z.testbit mask n),
    (Z.testbit m n); simpl in *; congruence.
Qed.

(** Setting a part of a field and then clearing that part clears the
    whole field. *)
Lemma set_then_clear (f field part : Z) :
  Z.land part field = part ->
  Z.lor (Z.ldiff (Z.lor (Z.ldiff f field) (Z.land part field)) part)
        (Z.land 0 part)
  = Z.ldiff f field.
Proof.
  intros H. by_bits.
  assert (Hp : Z.testbit part n && Z.testbit field n = Z.testbit part n).
  { rewrite <- Z.land_spec, H. reflexivity. }
  destruct (Z.testbit f n), (Z.testbit field n), (Z.testbit part n);
    simpl in *; congruence.
Qed.

Lemma ldiff_idem (f field : Z) :
  Z.ldiff (Z.ldiff f field) field = Z.ldiff f field.
Proof.
  by_bits. destruct (Z.testbit f n), (Z.testbit field n); reflexivity.
Qed.

Lemma ldiff_inside (f field : Z) : Z.land (Z.ldiff f field) field = 0.
Proof.
  by_bits. destruct (Z.testbit f n), (Z.testbit field n); reflexivity.
Qed.

Lemma ldiff_fixed (f field : Z) :
  Z.ldiff f field = f -> Z.land f field = 0.
Proof.
  intros H. rewrite <- H at 1. apply ldiff_inside.
Qed.

End Flags.

(* ------------------------------------------------------------------ *)
(** ** Strings, padding and digits *)

Lemma append_nil_r (s : string) : s ++ "" = s.
Proof. induction s as [|a s IH]; simpl; [reflexivity | now rewrite IH]. Qed.

Lemma append_assoc (a b c : string) : (a ++ b) ++ c = a ++ b ++ c.
Proof. induction a as [|x a IH]; simpl; [reflexivity | now rewrite IH]. Qed.

Lemma append_length (a b : string) :
  String.length (a ++ b) = (String.length a + String.length b)%nat.
Proof. induction a as [|x a IH]; simpl; [reflexivity | now rewrite IH]. Qed.


Lemma padding_none (w : Z) (c : ascii) (n : nat) :
  w <= Z.of_nat n -> padding w c n = "".
Proof.
  intros H. unfold padding.
  replace (Z.to_nat (w - Z.of_nat n)) with O by lia. reflexivity.
Qed.

(** With no width asked for, a field is its text, whatever the
    adjustment. *)
Lemma field_text_tight (f : Z) (c : ascii) (s : string) :
  field_text f 0 c "" s = s.
Proof.
  unfold field_text. cbv zeta. rewrite padding_none by lia.
  destruct (Z.land f adjustfield =? left), (Z.land f adjustfield =? internal);
    simpl; auto using append_nil_r.
Qed.


Lemma digits_length (b : Z) (up : bool) (n : nat) (u : Z) :
  String.length (digits b up n u) = n.
Proof. induction n as [|n IH]; simpl; [reflexivity | now rewrite IH]. Qed.






Lemma hex_digit_value_char (up : bool) (d : Z) :
  0 <= d < 16 -> hex_digit_value (digit_char up d) = d.
Proof.
  intros H.
  assert (E : d = 0 \/ d = 1 \/ d = 2 \/ d = 3 \/ d = 4 \/ d = 5 \/ d = 6
              \/ d = 7 \/ d = 8 \/ d = 9 \/ d = 10 \/ d = 11 \/ d = 12
              \/ d = 13 \/ d = 14 \/ d = 15) by lia.
  destruct up;
    repeat (destruct E as [-> | E]; [reflexivity|]); subst; reflexivity.
Qed.

Lemma hex_value_digits (up : bool) (n : nat) (u acc : Z) :
  hex_value acc (digits 16 up n u)
  = acc * 16 ^ Z.of_nat n + u mod 16 ^ Z.of_nat n.
Proof.
  revert acc. induction n as [|n IH]; intros acc.
  - simpl. rewrite Z.mod_1_r. lia.
  - cbn [digits hex_value]. rewrite IH.
    rewrite hex_digit_value_char by (apply Z.mod_pos_bound; lia).
    rewrite Nat2Z.inj_succ, Z.pow_succ_r by lia.
    rewrite (Z.mul_comm 16 (16 ^ Z.of_nat n)).
    rewrite Z.rem_mul_r by lia. lia.
Qed.

(** [hex8] is 8 characters that read back as the 32 bits of the status. *)
Lemma hex8_sound (up : bool) (x : Z) :
  String.length (hex8 up x) = 8%nat /\ hex_value 0 (hex8 up x) = x mod 2 ^ 32.
Proof.
  split; [apply digits_length|].
  unfold hex8. rewrite hex_value_digits. unfold to_ulong.
  change (16 ^ Z.of_nat 8) with (2 ^ 32). rewrite Zmod_mod. lia.
Qed.

(* ------------------------------------------------------------------ *)
(** ** Insertions, one step at a time *)

Section Steps.

Variables (f w : Z) (c : ascii) (t : string).

Lemma ins_string (s : string) :
  mkOstream f w c t << s = mkOstream f 0 c (t ++ field_text f w c "" s).
Proof. reflexivity. Qed.

Lemma ins_long (x : Z) :
  mkOstream f w c t << x
  = mkOstream f 0 c
      (t ++ field_text f w c (fst (long_repr f x)) (snd (long_repr f x))).
Proof. reflexivity. Qed.

Lemma ins_endl : mkOstream f w c t << endl = mkOstream f w c (t ++ nl).
Proof. reflexivity. Qed.

Lemma ins_hex :
  mkOstream f w c t << m_hex
  = mkOstream (Z.lor (Z.ldiff f basefield) (Z.land hex basefield)) w c t.
Proof. reflexivity. Qed.

Lemma ins_setw (n : Z) : mkOstream f w c t << setw n = mkOstream f n c t.
Proof. reflexivity. Qed.

Lemma ins_setfill (d : ascii) :
  mkOstream f w c t << setfill d = mkOstream f w d t.
Proof. reflexivity. Qed.

Lemma ins_reset (mask : Z) :
  mkOstream f w c t << resetiosflags mask
  = mkOstream (Z.lor (Z.ldiff f mask) (Z.land 0 mask)) w c t.
Proof. reflexivity. Qed.

End Steps.

Create Rewrite HintDb ins.
#[local] Hint Rewrite ins_string ins_long ins_endl ins_hex ins_setw
  ins_setfill ins_reset : ins.

(* ------------------------------------------------------------------ *)
(** ** Util::checkStatus: result and format state *)

Section CheckStatus.

Context {G : Gsit}.

Lemma checkStatus_fst (comm : GSIT_STATUS) (st : ApiStatus) (os : ostream) :
  fst (Util.checkStatus comm st os)
  = GSIT_SUCCEEDED comm && GSIT_SUCCEEDED (getErrorCode st).
Proof. reflexivity. Qed.

(** When neither test reports a failure the stream is not touched. *)
Lemma checkStatus_quiet (comm : GSIT_STATUS) (st : ApiStatus) (os : ostream) :
  GSIT_FAILED comm || GSIT_FAILED (getErrorCode st) = false ->
  snd (Util.checkStatus comm st os) = os.
Proof.
  intros H. unfold Util.checkStatus. rewrite H. reflexivity.
Qed.

(** On the reporting path width and fill come back, and the whole base
    field is left cleared. *)
Lemma checkStatus_format_failed
    (comm : GSIT_STATUS) (st : ApiStatus) (os : ostream) :
  GSIT_FAILED comm || GSIT_FAILED (getErrorCode st) = true ->
  let os' := snd (Util.checkStatus comm st os) in
  os_width os' = os_width os /\ os_fill os' = os_fill os /\
  os_flags os' = Z.ldiff (os_flags os) basefield.
Proof.
  intros H. unfold Util.checkStatus. rewrite H.
  destruct os as [f w c t]. cbn [snd os_width os_fill].
  destruct (negb (getLength (getErrorString st) =? 0)%nat);
    autorewrite with ins; unfold set_fill, set_width;
    cbn [os_flags os_width os_fill os_text];
    (split; [reflexivity | split; [reflexivity |]]);
    rewrite !set_then_clear by reflexivity; apply ldiff_idem.
Qed.

End CheckStatus.

(* ------------------------------------------------------------------ *)
(** ** Util::checkStatus: the diagnostic *)

Section Diagnostic.

Context {G : Gsit}.




End Diagnostic.



(* ------------------------------------------------------------------ *)
(** ** Util::checkStatus: the claims *)

(** C1: [Util::checkStatus] returns true exactly when the transport status
    indicates success and the application error code indicates success;
    a successful transport with a failed code gives false, and so does a
    failed transport with a successful code. *)
Theorem checkStatus_both_layers :
  forall (G : Gsit) (comm : GSIT_STATUS) (st : ApiStatus) (os : ostream),
    (fst (Util.checkStatus comm st os) = true <->
       GSIT_SUCCEEDED comm = true /\
       GSIT_SUCCEEDED (getErrorCode st) = true) /\
    (GSIT_SUCCEEDED comm = true ->
       GSIT_SUCCEEDED (getErrorCode st) = false ->
       fst (Util.checkStatus comm st os) = false) /\
    (GSIT_SUCCEEDED comm = false ->
       GSIT_SUCCEEDED (getErrorCode st) = true ->
       fst (Util.checkStatus comm st os) = false).
Proof.
  intros G comm st os. rewrite checkStatus_fst. repeat split.
  - now destruct (GSIT_SUCCEEDED comm).
  - destruct (GSIT_SUCCEEDED comm); [tauto | discriminate].
  - intros [-> ->]. reflexivity.
  - intros -> ->. reflexivity.
  - intros -> ->. reflexivity.
Qed.

Lemma checkStatus_both_layers_witness :
  fst (Util.checkStatus (G := zero_is_success) 0 status_no_session init)
    = false /\
  fst (Util.checkStatus (G := zero_is_success) 1 status_ok init) = false /\
  fst (Util.checkStatus (G := zero_is_success) 0 status_ok init) = true.
Proof.
  split; [| split].
  - destruct (checkStatus_both_layers zero_is_success 0 status_no_session
                init) as (_ & H & _).
    apply H; reflexivity.
  - destruct (checkStatus_both_layers zero_is_success 1 status_ok init)
      as (_ & _ & H).
    apply H; reflexivity.
  - destruct (checkStatus_both_layers zero_is_success 0 status_ok init)
      as (H & _).
    apply H. split; reflexivity.
Defined.

(** X1: width and fill are the caller's again after every call, on the
    reporting path and on the quiet path alike. *)
Lemma checkStatus_width_fill_restored
    (G : Gsit) (comm : GSIT_STATUS) (st : ApiStatus) (os : ostream) :
  os_width (snd (Util.checkStatus comm st os)) = os_width os /\
  os_fill (snd (Util.checkStatus comm st os)) = os_fill os.
Proof.
  destruct (GSIT_FAILED comm || GSIT_FAILED (getErrorCode st)) eqn:E.
  - destruct (checkStatus_format_failed comm st os E) as (Hw & Hf & _).
    now split.
  - now rewrite checkStatus_quiet.
Qed.

(** The adjustment, [showbase] and every other flag outside the base field
    are the caller's again as well, so a plain stream stays plain. *)
Lemma checkStatus_keeps_plain
    (G : Gsit) (comm : GSIT_STATUS) (st : ApiStatus) (os : ostream) :
  plain os -> plain (snd (Util.checkStatus comm st os)).
Proof.
  intros [Hs Ha].
  destruct (GSIT_FAILED comm || GSIT_FAILED (getErrorCode st)) eqn:E.
  - destruct (checkStatus_format_failed comm st os E) as (_ & _ & Hf).
    unfold plain, has in *. rewrite Hf.
    rewrite <- (Z.lor_0_r (Z.ldiff (os_flags os) basefield)).
    change 0 with (Z.land 0 basefield) at 1 3.
    rewrite !setf_outside by reflexivity. now split.
  - rewrite checkStatus_quiet by assumption. now split.
Qed.

(** C2: after a call that reports a failure, the numeric base of the
    stream is not what it was: whatever base the caller had set ([dec] on a
    fresh [std::cout]) is cleared, while width and fill are restored. *)
Theorem checkStatus_base_not_restored :
  forall (G : Gsit) (comm : GSIT_STATUS) (st : ApiStatus) (os : ostream),
    GSIT_FAILED comm || GSIT_FAILED (getErrorCode st) = true ->
    Z.land (os_flags os) basefield <> 0 ->
    os_flags (snd (Util.checkStatus comm st os)) <> os_flags os /\
    Z.land (os_flags (snd (Util.checkStatus comm st os))) basefield = 0.
Proof.
  intros G comm st os H Hb.
  destruct (checkStatus_format_failed comm st os H) as (_ & _ & Hf).
  rewrite Hf. split.
  - intros E. apply Hb. now apply ldiff_fixed.
  - apply ldiff_inside.
Qed.

(** A fresh [std::cout] is left with no base flag at all. *)
Example checkStatus_clears_dec :
  os_flags (snd (Util.checkStatus (G := zero_is_success) 1 status_ok init))
  = skipws.
Proof. vm_compute. reflexivity. Qed.

(** A caller printing in hexadecimal prints in decimal after a failing
    call. *)
Example checkStatus_loses_hex :
  os_text (set_flags init (Z.lor skipws hex) << 255) = "ff" /\
  os_flags
    (snd (Util.checkStatus (G := zero_is_success) 1 status_ok
            (set_flags init (Z.lor skipws hex))))
  = skipws /\
  os_text (set_flags init skipws << 255) = "255".
Proof. vm_compute. repeat split. Qed.

Lemma checkStatus_base_not_restored_witness :
  os_flags init = 513 /\
  os_flags (snd (Util.checkStatus (G := zero_is_success) 1 status_ok init))
    <> os_flags init.
Proof.
  split; [reflexivity|].
  apply (checkStatus_base_not_restored zero_is_success 1 status_ok init).
  - reflexivity.
  - discriminate.
Defined.







(* ------------------------------------------------------------------ *)
(** ** OsUtil: the claims *)

Lemma field_text_contains (f w : Z) (c : ascii) (s : string) :
  contains (field_text f w c "" s) s.
Proof.
  unfold field_text, contains. cbv zeta.
  set (pad := padding w c (String.length ("" ++ s))).
  destruct (Z.land f adjustfield =? left);
    [| destruct (Z.land f adjustfield =? internal)].
  - exists "", pad. reflexivity.
  - exists pad, "". simpl. now rewrite append_nil_r.
  - exists pad, "". simpl. now rewrite append_nil_r.
Qed.

(** The test [OsUtil::NormalizeLocalPath] makes on its argument. *)
Lemma drive_test (p : string) :
  (if (3 <? String.length p)%nat then
     if match String.get 1 p, String.get 2 p with
        | Some c1, Some c2 => Ascii.eqb c1 ":" && Ascii.eqb c2 "\"
        | _, _ => false
        end
     then true else false
   else false) = true <-> drive_prefix p.
Proof.
  unfold drive_prefix.
  destruct (Nat.ltb_spec 3 (String.length p)) as [Hl|Hl].
  - destruct (String.get 1 p) as [c1|], (String.get 2 p) as [c2|];
      try (split; [discriminate | intros (_ & H1 & H2); discriminate]).
    destruct (Ascii.eqb_spec c1 ":") as [->|N1],
             (Ascii.eqb_spec c2 "\") as [->|N2]; cbn [andb];
      split; try discriminate; try tauto;
      intros (_ & H1 & H2); congruence.
  - split; [discriminate | intros (H & _); lia].
Qed.

(** C6: for a non-empty path without the drive prefix,
    [OsUtil::NormalizeLocalPath] returns the working directory, the
    separator and the path when the working directory is obtained, and the
    empty string when it is not. *)
Theorem NormalizeLocalPath_relative :
  forall (p : string) (w : World),
    p <> "" ->
    ~ drive_prefix p ->
    (forall d, fst (_getcwd OsUtil.MAX_PATH_LENGTH w) = Some d ->
               fst (OsUtil.NormalizeLocalPath p w) = d ++ "\" ++ p) /\
    (fst (_getcwd OsUtil.MAX_PATH_LENGTH w) = None ->
     fst (OsUtil.NormalizeLocalPath p w) = "").
Proof.
  intros p w Hne Hnd. unfold OsUtil.NormalizeLocalPath.
  assert (Hl : (String.length p =? 0)%nat = false)
    by (destruct p; [contradiction | reflexivity]).
  rewrite Hl.
  match goal with
  | |- context [negb ?t] =>
      assert (E : t = false)
        by (destruct t eqn:T; [apply drive_test in T; contradiction
                              | reflexivity])
  end.
  rewrite E. cbn [negb]. unfold bind.
  destruct (_getcwd OsUtil.MAX_PATH_LENGTH w) as [[d|] w1]; cbn [fst].
  - split; [| discriminate].
    intros d' [= <-]. unfold ret. cbn [fst]. apply append_assoc.
  - split; [discriminate | reflexivity].
Qed.

Lemma NormalizeLocalPath_relative_witness :
  fst (OsUtil.NormalizeLocalPath "data\a.tif" demo_world)
    = "C:\work\data\a.tif" /\
  fst (OsUtil.NormalizeLocalPath "data\a.tif" bare_world) = "".
Proof.
  assert (Hne : "data\a.tif" <> "") by discriminate.
  assert (Hnd : ~ drive_prefix "data\a.tif")
    by (intros (_ & H & _); discriminate).
  split.
  - destruct (NormalizeLocalPath_relative "data\a.tif" demo_world Hne Hnd)
      as (H & _).
    apply (H "C:\work"). reflexivity.
  - destruct (NormalizeLocalPath_relative "data\a.tif" bare_world Hne Hnd)
      as (_ & H).
    apply H. reflexivity.
Defined.

(** C7: a path with the drive prefix is returned unchanged, and the
    working directory is not asked for. *)
Theorem NormalizeLocalPath_absolute :
  forall (p : string) (w : World),
    drive_prefix p ->
    OsUtil.NormalizeLocalPath p w = (p, w).
Proof.
  intros p w Hd. unfold OsUtil.NormalizeLocalPath.
  assert (Hl : (String.length p =? 0)%nat = false).
  { destruct Hd as (Hl & _). apply Nat.eqb_neq. lia. }
  rewrite Hl.
  match goal with
  | |- context [negb ?t] =>
      assert (E : t = true) by (now apply drive_test)
  end.
  rewrite E. reflexivity.
Qed.

Lemma NormalizeLocalPath_absolute_witness :
  OsUtil.NormalizeLocalPath "C:\data\a.tif" bare_world
  = ("C:\data\a.tif", bare_world).
Proof.
  apply (NormalizeLocalPath_absolute "C:\data\a.tif" bare_world).
  repeat split. simpl. lia.
Defined.

(** C8: without the variable, [OsUtil::StartGxpApplication] reads the
    environment, writes a line naming the variable and returns 0 without
    any process creation; with it, the call is [StartApplication] on the
    directory, the separator and [SocetGxp]. *)
Theorem StartGxpApplication_env :
  forall (w : World),
    (environ w "SOCETGXPEXE" = None ->
       fst (OsUtil.StartGxpApplication w) = 0 /\
       trace (snd (OsUtil.StartGxpApplication w))
         = (trace w ++ [EvGetenv "SOCETGXPEXE"])%list /\
       exists line,
         os_text (cout (snd (OsUtil.StartGxpApplication w)))
           = os_text (cout w) ++ line ++ nl /\
         contains line "SOCETGXPEXE is not set.") /\
    (forall dir, environ w "SOCETGXPEXE" = Some dir ->
       OsUtil.StartGxpApplication w
       = OsUtil.StartApplication (Some (dir ++ "\SocetGxp"))
           (snd (getenv "SOCETGXPEXE" w))).
Proof.
  intros w. split.
  - intros H. unfold OsUtil.StartGxpApplication, getenv, bind, log, print, ret.
    cbn [environ fst snd trace cout]. rewrite H. cbn [fst snd trace cout].
    split; [reflexivity | split; [reflexivity|]].
    destruct (cout w) as [f wd c t].
    eexists. split.
    + autorewrite with ins. cbn [os_text]. apply append_assoc.
    + apply field_text_contains.
  - intros dir H. unfold OsUtil.StartGxpApplication, getenv, bind, log.
    cbn [environ fst snd]. rewrite H. reflexivity.
Qed.

Lemma StartGxpApplication_env_witness :
  fst (OsUtil.StartGxpApplication bare_world) = 0 /\
  trace (snd (OsUtil.StartGxpApplication demo_world))
    = [EvGetenv "SOCETGXPEXE"; EvCreateProcess "C:\install\SocetGxp.exe"].
Proof.
  split.
  - destruct (StartGxpApplication_env bare_world) as (H & _).
    apply H. reflexivity.
  - destruct (StartGxpApplication_env demo_world) as (_ & H).
    rewrite (H "C:\install" eq_refl). reflexivity.
Defined.

(** C9: with an empty (or null) argument [OsUtil::StartApplication]
    returns 0 and leaves the world as it was: no process is created. *)
Theorem StartApplication_empty :
  forall (w : World),
    OsUtil.StartApplication (Some "") w = (0, w) /\
    OsUtil.StartApplication None w = (0, w).
Proof. intros w. split; reflexivity. Qed.

(** C10: [OsUtil::StartApplication] returns 0 or 10, and 10 exactly when
    the operating system created the process, whatever process identifier
    it handed out. *)
Theorem StartApplication_result :
  forall (application : option string) (w : World),
    (fst (OsUtil.StartApplication application w) = 0 \/
     fst (OsUtil.StartApplication application w) = 10) /\
    (fst (OsUtil.StartApplication application w) = 10 <->
     exists a info,
       application = Some a /\ a <> "" /\
       os_create w (a ++ ".exe") = Created info).
Proof.
  intros [a|] w; cbn [OsUtil.StartApplication].
  2: { split; [left; reflexivity|].
       split; [discriminate | intros (a & i & H & _); discriminate]. }
  destruct a as [|x a]; cbn [String.length Nat.eqb].
  { split; [left; reflexivity|].
    split; [discriminate | intros (a & i & [= <-] & H & _); contradiction]. }
  cbv [bind CreateProcess log set_last_error GetLastError print ret].
  cbn [os_create].
  destruct (os_create w (String x a ++ ".exe")) as [info|e] eqn:E;
    cbn [fst snd].
  - split; [right; reflexivity|].
    split; [| reflexivity].
    intros _. exists (String x a), info. repeat split; [discriminate | exact E].
  - split; [left; reflexivity|].
    split; [discriminate|].
    intros (a' & i & [= <-] & _ & H). congruence.
Qed.

Lemma StartApplication_result_witness :
  fst (OsUtil.StartApplication (Some "C:\install\SocetGxp") demo_world) = 10 /\
  os_create demo_world "C:\install\SocetGxp.exe"
    = Created (mkProcessInfo 4242 4243).
Proof.
  split; [| reflexivity].
  destruct (StartApplication_result (Some "C:\install\SocetGxp") demo_world)
    as (_ & H).
  apply H.
  exists "C:\install\SocetGxp", (mkProcessInfo 4242 4243).
  repeat split. discriminate.
Defined.

(* ------------------------------------------------------------------ *)
(** ** The driver: the claims *)

Lemma tmain_run (G : Gsit) (w : World) :
  GXPTemplate._tmain w
  = (0, mkWorld (cout w) (environ w) (os_cwd w) (os_create w)
          (last_error w) (connect_reply w)
          (trace w ++ [EvApi InitializeApi; EvApi gxpConnect;
                       EvApi gxpDisconnect; EvApi UninitializeApi])%list).
Proof.
  destruct w as [c env cwd create err [comm_status status] tr].
  cbv [GXPTemplate._tmain GXPTemplate.exec GXPTemplate.ApiManager_gxpConnect
       api log bind ret].
  cbn [trace cout environ os_cwd os_create last_error connect_reply].
  rewrite <- !app_assoc. reflexivity.
Qed.

Lemma added_app {A} (m : M A) (w : World) (evs : list Event) :
  trace (snd (m w)) = (trace w ++ evs)%list -> added m w = evs.
Proof.
  intros H. unfold added. rewrite H.
  rewrite skipn_app, skipn_all, Nat.sub_diag. reflexivity.
Qed.

(** C3, as the driver is written: every run initialises the API, connects,
    disconnects and uninitialises the API, in this order and nothing else;
    it returns 0 and leaves [std::cout] alone. *)
Theorem tmain_flow :
  forall (G : Gsit) (w : World),
    fst (GXPTemplate._tmain w) = 0 /\
    added GXPTemplate._tmain w
      = [EvApi InitializeApi; EvApi gxpConnect; EvApi gxpDisconnect;
         EvApi UninitializeApi] /\
    cout (snd (GXPTemplate._tmain w)) = cout w.
Proof.
  intros G w. split; [| split].
  - now rewrite tmain_run.
  - apply added_app. now rewrite tmain_run.
  - now rewrite tmain_run.
Qed.

(** C3 refuted: on a machine where the variable is set and the connect
    attempt fails, the run neither reads the environment nor validates the
    connect result, and writes no diagnostic. *)
Lemma tmain_not_reference_flow :
  ~ reference_flow (added (GXPTemplate._tmain (G := zero_is_success))
                      demo_world) /\
  fst (Util.checkStatus (G := zero_is_success)
         (fst (connect_reply demo_world)) (snd (connect_reply demo_world))
         init) = false /\
  os_text (cout (snd (GXPTemplate._tmain (G := zero_is_success) demo_world)))
    = "".
Proof.
  split; [| split; reflexivity].
  intros [name H].
  change (added (GXPTemplate._tmain (G := zero_is_success)) demo_world)
    with [EvApi InitializeApi; EvApi gxpConnect; EvApi gxpDisconnect;
          EvApi UninitializeApi] in H.
  repeat match goal with
         | H : subseq (_ :: _) _ |- _ => inversion H; clear H; subst
         end.
Qed.

(** C4: in every run, whatever the reply to the connect call, the
    disconnect call is made exactly once, after the connect call. *)
Theorem disconnect_exactly_once :
  forall (G : Gsit) (w : World),
    List.length (filter is_disconnect (added GXPTemplate._tmain w)) = 1%nat /\
    exists before after,
      added GXPTemplate._tmain w
        = (before ++ EvApi gxpConnect :: after)%list /\
      In (EvApi gxpDisconnect) after.
Proof.
  intros G w.
  rewrite (added_app GXPTemplate._tmain w
             [EvApi InitializeApi; EvApi gxpConnect; EvApi gxpDisconnect;
              EvApi UninitializeApi]) by now rewrite tmain_run.
  split; [reflexivity|].
  exists [EvApi InitializeApi], [EvApi gxpDisconnect; EvApi UninitializeApi].
  split; [reflexivity | left; reflexivity].
Qed.

Example exec_after_failed_connect :
  added (GXPTemplate.exec (G := zero_is_success)) demo_world
  = [EvApi gxpConnect; EvApi gxpDisconnect].
Proof. reflexivity. Qed.

(* ------------------------------------------------------------------ *)
(** ** Util::checkStatus: further properties *)

(** X2: whatever the outcome, [Util::checkStatus] leaves every format flag
    outside the base field as the caller had it. *)
Theorem checkStatus_flags_outside_base :
  forall (G : Gsit) (comm : GSIT_STATUS) (st : ApiStatus) (os : ostream)
         (mask : Z),
    Z.land basefield mask = 0 ->
    Z.land (os_flags (snd (Util.checkStatus comm st os))) mask
    = Z.land (os_flags os) mask.
Proof.
  intros G comm st os mask Hm.
  destruct (GSIT_FAILED comm || GSIT_FAILED (getErrorCode st)) eqn:E.
  - destruct (checkStatus_format_failed comm st os E) as (_ & _ & ->).
    rewrite <- (Z.lor_0_r (Z.ldiff (os_flags os) basefield)).
    change 0 with (Z.land 0 basefield) at 1.
    now apply setf_outside.
  - now rewrite checkStatus_quiet.
Qed.

Lemma checkStatus_flags_outside_base_witness :
  Z.land
    (os_flags
       (snd (Util.checkStatus (G := zero_is_success) 1 status_no_session
               (set_flags init (Z.lor (Z.lor left showbase) dec)))))
    (Z.lor adjustfield showbase)
  = Z.lor left showbase.
Proof.
  rewrite (checkStatus_flags_outside_base zero_is_success 1
             status_no_session
             (set_flags init (Z.lor (Z.lor left showbase) dec))
             (Z.lor adjustfield showbase) eq_refl).
  reflexivity.
Defined.

(** X3: once a call has reported a failure, any further call, failing or
    not, hands the stream back with the format state it found. *)
Theorem checkStatus_format_settles :
  forall (G : Gsit) (comm1 comm2 : GSIT_STATUS) (st1 st2 : ApiStatus)
         (os : ostream),
    GSIT_FAILED comm1 || GSIT_FAILED (getErrorCode st1) = true ->
    format_of
      (snd (Util.checkStatus comm2 st2 (snd (Util.checkStatus comm1 st1 os))))
    = format_of (snd (Util.checkStatus comm1 st1 os)).
Proof.
  intros G comm1 comm2 st1 st2 os H1.
  destruct (checkStatus_format_failed comm1 st1 os H1) as (_ & _ & Hf1).
  set (os1 := snd (Util.checkStatus comm1 st1 os)) in *.
  destruct (GSIT_FAILED comm2 || GSIT_FAILED (getErrorCode st2)) eqn:E2.
  - destruct (checkStatus_format_failed comm2 st2 os1 E2) as (Hw & Hc & Hf).
    unfold format_of. rewrite Hw, Hc, Hf, Hf1, ldiff_idem. reflexivity.
  - now rewrite checkStatus_quiet.
Qed.

Lemma checkStatus_format_settles_witness :
  format_of
    (snd (Util.checkStatus (G := zero_is_success) 7 status_ok
            (snd (Util.checkStatus (G := zero_is_success) 0
                    status_no_session init))))
  = (skipws, 0, " "%char).
Proof.
  rewrite (checkStatus_format_settles zero_is_success 0 7 status_no_session
             status_ok init eq_refl).
  vm_compute. reflexivity.
Defined.

Lemma fill_chars_length (n : nat) (c : ascii) :
  String.length (fill_chars n c) = n.
Proof. induction n as [|n IH]; simpl; [reflexivity | now rewrite IH]. Qed.

(** A formatted field is never narrower than the width asked for. *)
Lemma field_text_width (f w : Z) (c : ascii) (pre body : string) :
  w <= Z.of_nat (String.length (field_text f w c pre body)).
Proof.
  unfold field_text, padding. cbv zeta.
  destruct (Z.land f adjustfield =? left);
    [| destruct (Z.land f adjustfield =? internal)];
    rewrite !append_length, fill_chars_length; lia.
Qed.

(** X4: on any stream, in any format state, [Util::checkStatus] only
    appends; a failing call appends the banner line, the two labelled code
    fields of at least 8 characters each, then the message line if there
    is a message and two empty lines. *)
Theorem checkStatus_block_layout :
  forall (G : Gsit) (comm : GSIT_STATUS) (st : ApiStatus) (os : ostream),
    GSIT_FAILED comm || GSIT_FAILED (getErrorCode st) = true ->
    exists first code1 code2,
      os_text (snd (Util.checkStatus comm st os))
      = os_text os ++ first ++ nl
          ++ "Communication Error: 0x" ++ code1 ++ nl
          ++ "GXP Error: 0x" ++ code2 ++ nl
          ++ message_tail (getErrorString st) /\
      contains first banner /\
      (8 <= String.length code1)%nat /\ (8 <= String.length code2)%nat.
Proof.
  intros G comm st os H. unfold Util.checkStatus. rewrite H.
  destruct os as [f w c t], st as [code msg].
  cbn [snd getErrorCode getErrorString].
  destruct msg as [|a msg]; cbn [getLength String.length Nat.eqb negb];
    autorewrite with ins; unfold set_fill, set_width;
    cbn [os_flags os_width os_fill os_text];
    rewrite !field_text_tight; unfold getText; rewrite !append_assoc;
    match goal with
    | |- context [field_text ?f1 8 ?c1 ?p1 ?b1 ++ nl ++ "GXP Error: 0x"
                    ++ field_text ?f2 8 ?c2 ?p2 ?b2 ++ _] =>
        exists (field_text f w c "" banner),
               (field_text f1 8 c1 p1 b1), (field_text f2 8 c2 p2 b2);
        pose proof (field_text_width f1 8 c1 p1 b1);
        pose proof (field_text_width f2 8 c2 p2 b2)
    end;
    (split; [reflexivity | split; [apply field_text_contains | lia]]).
Qed.

Lemma checkStatus_block_layout_witness :
  exists first code1 code2,
    os_text
      (snd (Util.checkStatus (G := zero_is_success) 1 status_no_session
              (set_flags (set_width init 20) (Z.lor left showbase))))
    = first ++ nl ++ "Communication Error: 0x" ++ code1 ++ nl
        ++ "GXP Error: 0x" ++ code2 ++ nl
        ++ message_tail "no session" /\
    contains first banner /\
    (8 <= String.length code1)%nat /\ (8 <= String.length code2)%nat.
Proof.
  exact (checkStatus_block_layout zero_is_success 1 status_no_session
           (set_flags (set_width init 20) (Z.lor left showbase)) eq_refl).
Defined.

(* ------------------------------------------------------------------ *)
(** ** OsUtil::StartApplication: further properties *)

(** What a call with a non-empty argument does, by the system's answer. *)
Lemma StartApplication_run (a : string) (w : World) :
  a <> "" ->
  OsUtil.StartApplication (Some a) w
  = match os_create w (a ++ ".exe") with
    | Created _ => (10, snd (log (EvCreateProcess (a ++ ".exe")) w))
    | Refused e =>
        (0, snd ((log (EvCreateProcess (a ++ ".exe")) ;;
                  set_last_error e ;;
                  print (fun cout =>
                           cout << "REPORTED ERROR: " << to_long e << endl))
                   w))
    end.
Proof.
  intros Ha. destruct a as [|x a]; [contradiction|].
  cbv [OsUtil.StartApplication bind CreateProcess log set_last_error
       GetLastError print ret].
  cbn [String.length Nat.eqb os_create last_error].
  destruct (os_create w (String x a ++ ".exe")); reflexivity.
Qed.

(** X5: for a non-empty argument [OsUtil::StartApplication] asks the
    system exactly once to create a process, for the argument followed by
    [.exe], whether or not the argument already ends in [.exe] and whatever
    the system answers. *)
Theorem StartApplication_one_request :
  forall (a : string) (w : World),
    a <> "" ->
    trace (snd (OsUtil.StartApplication (Some a) w))
    = (trace w ++ [EvCreateProcess (a ++ ".exe")])%list.
Proof.
  intros a w Ha. rewrite (StartApplication_run a w Ha).
  destruct (os_create w (a ++ ".exe")); reflexivity.
Qed.

Lemma StartApplication_one_request_witness :
  trace (snd (OsUtil.StartApplication (Some "tool.exe") bare_world))
  = [EvCreateProcess "tool.exe.exe"].
Proof.
  apply (StartApplication_one_request "tool.exe" bare_world). discriminate.
Defined.

(** X6: when the system creates the process, [OsUtil::StartApplication]
    writes nothing: [std::cout], text and format state, is as it was. *)
Theorem StartApplication_created_silent :
  forall (a : string) (w : World) (info : PROCESS_INFORMATION),
    a <> "" ->
    os_create w (a ++ ".exe") = Created info ->
    cout (snd (OsUtil.StartApplication (Some a) w)) = cout w.
Proof.
  intros a w info Ha Hc. rewrite (StartApplication_run a w Ha), Hc.
  reflexivity.
Qed.

Lemma StartApplication_created_silent_witness :
  cout (snd (OsUtil.StartApplication (Some "C:\install\SocetGxp") demo_world))
  = init.
Proof.
  apply (StartApplication_created_silent "C:\install\SocetGxp" demo_world
           (mkProcessInfo 4242 4243)).
  - discriminate.
  - reflexivity.
Defined.






(** The same refusal on a stream the caller switched to upper-case
    hexadecimal with [showbase] and a pending width of 20. *)
Example StartApplication_refused_hex :
  let w :=
    mkWorld
      (set_width
         (set_flags init
            (Z.lor (Z.lor (Z.lor skipws hex) showbase) uppercase)) 20)
      (fun _ => None) None (fun _ => Refused 193) 0 (0, status_ok) [] in
  fst (OsUtil.StartApplication (Some "tool") w) = 0 /\
  os_text (cout (snd (OsUtil.StartApplication (Some "tool") w)))
  = "    REPORTED ERROR: 0XC1" ++ nl.
Proof. vm_compute. split; reflexivity. Qed.

(* ------------------------------------------------------------------ *)
(** ** OsUtil::StartGxpApplication: further properties *)

(** X8: [OsUtil::StartGxpApplication] returns 10 exactly when the variable
    is set and the system creates the process for the directory followed
    by [\SocetGxp.exe], and 0 otherwise; once the variable is set, even to
    the empty string, that creation is always requested. *)
Theorem StartGxpApplication_result :
  forall (w : World),
    (fst (OsUtil.StartGxpApplication w) = 10 <->
     exists dir info,
       environ w "SOCETGXPEXE" = Some dir /\
       os_create w (dir ++ "\SocetGxp.exe") = Created info) /\
    (fst (OsUtil.StartGxpApplication w) = 0 \/
     fst (OsUtil.StartGxpApplication w) = 10) /\
    (forall dir,
       environ w "SOCETGXPEXE" = Some dir ->
       trace (snd (OsUtil.StartGxpApplication w))
       = (trace w ++ [EvGetenv "SOCETGXPEXE";
                      EvCreateProcess (dir ++ "\SocetGxp.exe")])%list).
Proof.
  intros w.
  assert (Hrun : forall dir,
             environ w "SOCETGXPEXE" = Some dir ->
             OsUtil.StartGxpApplication w
             = OsUtil.StartApplication (Some (dir ++ "\SocetGxp"))
                 (snd (log (EvGetenv "SOCETGXPEXE") w))).
  { intros dir H. unfold OsUtil.StartGxpApplication, getenv, bind, log.
    cbn [environ fst snd]. rewrite H. reflexivity. }
  assert (Hne : forall dir, dir ++ "\SocetGxp" <> "").
  { intros dir E. apply (f_equal String.length) in E.
    rewrite append_length in E. simpl in E. lia. }
  destruct (environ w "SOCETGXPEXE") as [dir|] eqn:Env.
  - rewrite (Hrun dir eq_refl), (StartApplication_run _ _ (Hne dir)).
    rewrite append_assoc. cbn [append log snd os_create].
    change (String "\" (String "S" (String "o" (String "c" (String "e"
             (String "t" (String "G" (String "x" (String "p" ".exe")))))))))
      with "\SocetGxp.exe".
    destruct (os_create w (dir ++ "\SocetGxp.exe")) as [info|e] eqn:E;
      cbn [fst snd trace]; (split; [| split]).
    + split; [| reflexivity]. intros _. exists dir, info. now split.
    + right; reflexivity.
    + intros d [= <-]. rewrite <- app_assoc. reflexivity.
    + split; [discriminate|].
      intros (d & i & [= <-] & Hc). congruence.
    + left; reflexivity.
    + intros d [= <-]. cbv [bind log set_last_error print].
      cbn [snd trace]. rewrite <- app_assoc. reflexivity.
  - assert (H0 : OsUtil.StartGxpApplication w
                 = (0, snd (OsUtil.StartGxpApplication w))).
    { unfold OsUtil.StartGxpApplication, getenv, bind, log.
      cbn [environ fst snd]. rewrite Env. reflexivity. }
    rewrite H0. cbn [fst]. split; [| split].
    + split; [discriminate | intros (d & i & Hd & _); discriminate].
    + left; reflexivity.
    + intros d Hd. discriminate.
Qed.

Lemma StartGxpApplication_result_witness :
  fst (OsUtil.StartGxpApplication demo_world) = 10 /\
  trace (snd (OsUtil.StartGxpApplication demo_world))
  = [EvGetenv "SOCETGXPEXE"; EvCreateProcess "C:\install\SocetGxp.exe"].
Proof.
  destruct (StartGxpApplication_result demo_world) as (H10 & _ & Htr).
  split.
  - apply H10. exists "C:\install", (mkProcessInfo 4242 4243).
    split; reflexivity.
  - apply (Htr "C:\install"). reflexivity.
Defined.

(* ------------------------------------------------------------------ *)
(** ** OsUtil::NormalizeLocalPath: further properties *)

(** The three ways a call can go. *)
Lemma NormalizeLocalPath_cases (p : string) (w : World) :
  (p = "" /\ OsUtil.NormalizeLocalPath p w = ("", w)) \/
  (drive_prefix p /\ OsUtil.NormalizeLocalPath p w = (p, w)) \/
  (p <> "" /\ ~ drive_prefix p /\
   OsUtil.NormalizeLocalPath p w
   = (match os_cwd w with
      | Some d =>
          if Z.of_nat (String.length d) <? OsUtil.MAX_PATH_LENGTH
          then d ++ "\" ++ p else ""
      | None => ""
      end, snd (log EvGetcwd w))).
Proof.
  destruct p as [|a p]; [left; split; reflexivity | right].
  unfold OsUtil.NormalizeLocalPath.
  replace (String.length (String a p) =? 0)%nat with false by reflexivity.
  match goal with
  | |- context [negb ?t] => destruct t eqn:T
  end.
  - left. split; [now apply drive_test | reflexivity].
  - right. split; [discriminate|].
    split; [intros Hd; apply drive_test in Hd; congruence|].
    cbv [negb bind _getcwd log ret]. cbn [os_cwd snd].
    destruct (os_cwd w) as [d|]; [| reflexivity].
    destruct (Z.of_nat (String.length d) <? OsUtil.MAX_PATH_LENGTH);
      [| reflexivity].
    now rewrite append_assoc.
Qed.

(** X9: [OsUtil::NormalizeLocalPath] has three outcomes: the empty string,
    the path as given, or the working directory, the separator and the
    path as given; it never changes the text of the path itself. *)
Theorem NormalizeLocalPath_outcomes :
  forall (p : string) (w : World),
    fst (OsUtil.NormalizeLocalPath p w) = "" \/
    fst (OsUtil.NormalizeLocalPath p w) = p \/
    exists d, os_cwd w = Some d /\
              fst (OsUtil.NormalizeLocalPath p w) = d ++ "\" ++ p.
Proof.
  intros p w.
  destruct (NormalizeLocalPath_cases p w)
    as [(_ & ->) | [(_ & ->) | (_ & _ & ->)]]; cbn [fst]; auto.
  destruct (os_cwd w) as [d|]; auto.
  destruct (Z.of_nat (String.length d) <? OsUtil.MAX_PATH_LENGTH); auto.
  right; right. now exists d.
Qed.

(** X10: [OsUtil::NormalizeLocalPath] asks for the working directory at
    most once and neither writes to [std::cout] nor reads the environment
    nor creates a process; for the empty path it returns the empty string
    at once, without asking. *)
Theorem NormalizeLocalPath_frame :
  forall (p : string) (w : World),
    cout (snd (OsUtil.NormalizeLocalPath p w)) = cout w /\
    (trace (snd (OsUtil.NormalizeLocalPath p w)) = trace w \/
     trace (snd (OsUtil.NormalizeLocalPath p w))
       = (trace w ++ [EvGetcwd])%list) /\
    fst (OsUtil.NormalizeLocalPath "" w) = "" /\
    trace (snd (OsUtil.NormalizeLocalPath "" w)) = trace w.
Proof.
  intros p w.
  split; [| split; [| split; reflexivity]];
    destruct (NormalizeLocalPath_cases p w)
      as [(_ & ->) | [(_ & ->) | (_ & _ & ->)]]; cbn [snd log cout trace];
    auto.
Qed.

(** X11: for a non-empty path without the drive prefix the result is the
    working directory, the separator and the path exactly when the working
    directory is shorter than 2048 characters, and the empty string from
    2048 characters on. *)
Theorem NormalizeLocalPath_buffer_bound :
  forall (p d : string) (w : World),
    p <> "" ->
    ~ drive_prefix p ->
    os_cwd w = Some d ->
    ((String.length d < 2048)%nat ->
     fst (OsUtil.NormalizeLocalPath p w) = d ++ "\" ++ p) /\
    ((2048 <= String.length d)%nat ->
     fst (OsUtil.NormalizeLocalPath p w) = "").
Proof.
  intros p d w Hne Hnd Hd.
  destruct (NormalizeLocalPath_cases p w)
    as [(E & _) | [(E & _) | (_ & _ & ->)]]; try contradiction.
  rewrite Hd. cbn [fst]. unfold OsUtil.MAX_PATH_LENGTH.
  destruct (Z.ltb_spec (Z.of_nat (String.length d)) 2048); split;
    intros; first [reflexivity | lia].
Qed.

Lemma NormalizeLocalPath_buffer_bound_witness :
  fst (OsUtil.NormalizeLocalPath "a.tif" deep_world) = "" /\
  fst (OsUtil.NormalizeLocalPath "a.tif" demo_world) = "C:\work\a.tif".
Proof.
  assert (Hne : "a.tif" <> "") by discriminate.
  assert (Hnd : ~ drive_prefix "a.tif") by (intros (_ & H & _); discriminate).
  split.
  - destruct (NormalizeLocalPath_buffer_bound "a.tif" (fill_chars 2048 "d")
                deep_world Hne Hnd eq_refl) as (_ & H).
    apply H. rewrite fill_chars_length. apply le_n.
  - destruct (NormalizeLocalPath_buffer_bound "a.tif" "C:\work" demo_world
                Hne Hnd eq_refl) as (H & _).
    apply H. cbn [String.length]. lia.
Defined.

Lemma get_length (n : nat) (s : string) (c : ascii) :
  String.get n s = Some c -> (n < String.length s)%nat.
Proof.
  revert n. induction s as [|a s IH]; intros n H; [discriminate|].
  destruct n as [|n]; cbn [String.length]; [lia|].
  apply IH in H. lia.
Qed.

Lemma get_append_left (n : nat) (s t : string) (c : ascii) :
  String.get n s = Some c -> String.get n (s ++ t) = Some c.
Proof.
  revert n. induction s as [|a s IH]; intros n H; [discriminate|].
  destruct n as [|n]; [exact H | apply IH, H].
Qed.

Lemma NormalizeLocalPath_drive_fixed (p : string) (w : World) :
  drive_prefix p -> OsUtil.NormalizeLocalPath p w = (p, w).
Proof.
  intros Hd.
  destruct (NormalizeLocalPath_cases p w)
    as [(E & _) | [(_ & E) | (_ & N & _)]].
  - subst p. destruct Hd as (Hl & _). simpl in Hl. lia.
  - exact E.
  - contradiction.
Qed.

(** X12: when the working directory starts with a drive and the separator
    and fits the buffer, normalising a non-empty path gives a path that
    normalising again returns unchanged, without reading the working
    directory a second time. *)
Theorem NormalizeLocalPath_idempotent :
  forall (p d : string) (w w' : World),
    p <> "" ->
    os_cwd w = Some d ->
    (String.length d < 2048)%nat ->
    String.get 1 d = Some ":"%char ->
    String.get 2 d = Some "\"%char ->
    OsUtil.NormalizeLocalPath (fst (OsUtil.NormalizeLocalPath p w)) w'
    = (fst (OsUtil.NormalizeLocalPath p w), w').
Proof.
  intros p d w w' Hne Hd Hl H1 H2.
  apply NormalizeLocalPath_drive_fixed.
  destruct (NormalizeLocalPath_cases p w)
    as [(E & _) | [(Hp & ->) | (_ & _ & ->)]]; [contradiction | exact Hp |].
  rewrite Hd. cbn [fst]. unfold OsUtil.MAX_PATH_LENGTH.
  destruct (Z.ltb_spec (Z.of_nat (String.length d)) 2048); [| lia].
  repeat split.
  - rewrite append_length. apply get_length in H2.
    destruct p; [contradiction | simpl; lia].
  - now apply get_append_left.
  - now apply get_append_left.
Qed.

Lemma NormalizeLocalPath_idempotent_witness :
  OsUtil.NormalizeLocalPath
    (fst (OsUtil.NormalizeLocalPath "data\a.tif" demo_world)) bare_world
  = ("C:\work\data\a.tif", bare_world).
Proof.
  rewrite (NormalizeLocalPath_idempotent "data\a.tif" "C:\work" demo_world
             bare_world).
  - reflexivity.
  - discriminate.
  - reflexivity.
  - cbn [String.length]. lia.
  - reflexivity.
  - reflexivity.
Defined.

(* ------------------------------------------------------------------ *)
(** ** OsUtil::Sleep: the delay requested *)

(** X13: for up to 2147483 seconds [OsUtil::Sleep] asks for 1000
    milliseconds per second; a negative argument down to -2147483 does not
    return at once but asks for 2^32 milliseconds less 1000 per second,
    more than 2147484 seconds. *)
Theorem Sleep_request :
  forall (seconds : Z),
    - 2147483 <= seconds <= 2147483 ->
    OsUtil_Sleep seconds
    = Some (if seconds <? 0 then 2 ^ 32 + seconds * 1000
            else seconds * 1000) /\
    (seconds < 0 ->
     exists ms, OsUtil_Sleep seconds = Some ms /\ 2147484296 <= ms).
Proof.
  intros s Hs.
  assert (E : OsUtil_Sleep s
              = Some (if s <? 0 then 2 ^ 32 + s * 1000 else s * 1000)).
  { unfold OsUtil_Sleep, int_fits, to_ulong.
    replace ((- 2 ^ 31 <=? s * 1000) && (s * 1000 <? 2 ^ 31)) with true
      by (symmetry; apply andb_true_iff; split;
          [apply Z.leb_le | apply Z.ltb_lt]; lia).
    f_equal. destruct (Z.ltb_spec s 0).
    - rewrite <- (Z.mod_add _ 1) by lia. rewrite Z.mod_small; lia.
    - rewrite Z.mod_small; lia. }
  split; [exact E|].
  intros Hneg. eexists. split; [exact E|].
  destruct (Z.ltb_spec s 0); lia.
Qed.

Lemma Sleep_request_witness :
  OsUtil_Sleep 3 = Some 3000 /\ OsUtil_Sleep (-1) = Some 4294966296.
Proof.
  split.
  - apply (Sleep_request 3). lia.
  - apply (Sleep_request (-1)). lia.
Defined.
